(** * Client-side session and cache-coherence contract of the admin frontend

    A shallow embedding of the React components under [frontend/src]:
    the mutation forms ([DeleteAlert], [AddUser], [UserInformation],
    [ChangePassword], [DeleteConfirmation], [ResetPassword]), the route
    guard of [routes/_layout.tsx], the bearer-token resolver installed in
    [main.tsx] and the tab selection of [routes/_layout/settings.tsx].

    The browser and the third-party libraries are modelled as an explicit
    world: [localStorage] is a finite map from keys to strings, the
    TanStack [QueryClient] is a finite map from the query key to a query
    state, and everything a handler does to the outside (requests, toasts,
    cache operations, navigation) is appended to an effect log. *)

From Stdlib Require Import ZArith Ascii String.
From stdpp Require Import gmap strings list.

Local Open Scope string_scope.
Local Open Scope Z_scope.
Local Open Scope list_scope.

(** ** Data model *)

(** [UserPublic] of the generated client; only the fields the components
    read are kept. *)
Record UserPublic := {
  user_id : Z;
  email : string;
  full_name : option string;
  is_superuser : bool;
  is_active : bool;
}.

Record ItemPublic := {
  item_id : Z;
  title : string;
  description : option string;
}.

(** What a query of the cache can hold: the current user, the user list or
    the item list. *)
Inductive CachedData :=
| CUser (u : UserPublic)
| CUsers (l : list UserPublic)
| CItems (l : list ItemPublic).

(** A query of the [QueryClient]: its data and the stale mark set by
    [invalidateQueries]. *)
Record QueryState := {
  qdata : option CachedData;
  isInvalidated : bool;
}.

(** The [detail] field of an error body is a string or an object. *)
Inductive ErrDetail :=
| DString (s : string)
| DObject.

Record ApiError := {
  status : Z;
  detail : option ErrDetail;
}.

(** The service calls the components issue. *)
Inductive ApiCall :=
| LoginAccessToken (username password : string)
| DeleteItem (id : Z)
| DeleteUser (userId : Z)
| CreateUser (email password : string) (full_name : string)
    (is_superuser is_active : bool)
| UpdateUser (userId : Z) (email : string)
| CreateItem (title : string)
| UpdateItem (id : Z) (title : string)
| UpdateUserMe (full_name email : option string)
| UpdatePasswordMe (current_password new_password : string)
| ResetPasswordCall (new_password token : string).

(** What the server does with a request: a 2xx response with a body, a
    response with an error status, or no response at all. *)
Inductive Response :=
| RespOk (body : string)
| RespErr (e : ApiError)
| RespNone.

Definition Headers := list (string * string).

(** The three operations [QueryClient] offers on its cache that change it
    or are observable. *)
Inductive CacheOp :=
| Invalidate (key : string)
| SetData (key : string) (d : CachedData).

Inductive Effect :=
| ERequest (h : Headers) (c : ApiCall)
| EToast (title description status : string)
| ECache (op : CacheOp)
| EFormReset
| EClose
| ENavigate (to : string)
| ERender (component : string).

(** What a handler can throw. *)
Inductive Thrown :=
| ThrowApi (e : ApiError)
| ThrowError (message : string)
| ThrowRedirect (to : string).

(** The world a handler runs in.  [location_search] is the parsed query
    string of the page address, in order of appearance. *)
Record World := {
  localStorage : gmap string string;
  queries : gmap string QueryState;
  location_search : list (string * string);
  effects : list Effect;
}.

Definition with_storage (f : gmap string string -> gmap string string)
    (w : World) : World :=
  {| localStorage := f (localStorage w);
     queries := queries w;
     location_search := location_search w;
     effects := effects w |}.

Definition with_queries (f : gmap string QueryState -> gmap string QueryState)
    (w : World) : World :=
  {| localStorage := localStorage w;
     queries := f (queries w);
     location_search := location_search w;
     effects := effects w |}.

Definition log_effect (e : Effect) (w : World) : World :=
  {| localStorage := localStorage w;
     queries := queries w;
     location_search := location_search w;
     effects := effects w ++ [e] |}.

(** ** The monad of handlers: state and exceptions *)

Inductive Outcome (A : Type) :=
| Done (a : A)
| Raised (e : Thrown).
Arguments Done {A} a.
Arguments Raised {A} e.

Definition M (A : Type) : Type := World -> Outcome A * World.

Definition ret {A} (a : A) : M A := fun w => (Done a, w).

Definition bind {A B} (m : M A) (k : A -> M B) : M B :=
  fun w =>
    match m w with
    | (Done a, w1) => k a w1
    | (Raised e, w1) => (Raised e, w1)
    end.

Definition throw {A} (e : Thrown) : M A := fun w => (Raised e, w).

Definition try_catch {A} (m : M A) (h : Thrown -> M A) : M A :=
  fun w =>
    match m w with
    | (Done a, w1) => (Done a, w1)
    | (Raised e, w1) => h e w1
    end.

Declare Scope handler_scope.
Delimit Scope handler_scope with handler.
Notation "x <- c1 ;; c2" := (bind c1 (fun x => c2))
  (at level 100, c1 at next level, c2 at level 200, right associativity)
  : handler_scope.
Notation "c1 ;; c2" := (bind c1 (fun _ => c2))
  (at level 100, c2 at level 200, right associativity) : handler_scope.
Local Open Scope handler_scope.

(** Reading the world and changing it. *)
Definition read {A} (f : World -> A) : M A := fun w => (Done (f w), w).
Definition update (f : World -> World) : M unit := fun w => (Done tt, f w).

Definition emit (e : Effect) : M unit := update (log_effect e).

Definition world_after {A} (m : M A) (w : World) : World := (m w).2.
Definition outcome_of {A} (m : M A) (w : World) : Outcome A := (m w).1.

(** ** Browser storage and page address *)

Definition getItem (k : string) : M (option string) :=
  read (fun w => localStorage w !! k).

Definition setItem (k v : string) : M unit :=
  update (with_storage (insert k v)).

Definition removeItem (k : string) : M unit :=
  update (with_storage (delete k)).

(** [URLSearchParams.get]: the value of the first pair with that name. *)
Fixpoint search_get (name : string) (ps : list (string * string))
    : option string :=
  match ps with
  | [] => None
  | (k, v) :: ps' => if String.eqb k name then Some v else search_get name ps'
  end.

Definition URLSearchParams_get (name : string) : M (option string) :=
  read (fun w => search_get name (location_search w)).

(** ** The query cache *)

Definition mark_stale (q : QueryState) : QueryState :=
  {| qdata := qdata q; isInvalidated := true |}.

(** [queryClient.invalidateQueries({ queryKey: [k] })]: every key used in
    the application is a one-element array, so the query it matches is
    the one stored under [k]. *)
Definition invalidateQueries (k : string) : M unit :=
  update (fun w =>
    log_effect (ECache (Invalidate k)) (with_queries (alter mark_stale k) w)).

(** [queryClient.setQueryData([k], d)]. *)
Definition setQueryData (k : string) (d : CachedData) : M unit :=
  update (fun w =>
    log_effect (ECache (SetData k d))
      (with_queries (insert k {| qdata := Some d; isInvalidated := false |}) w)).

(** The data held in the cache under a key, without the stale mark. *)
Definition cached_data (w : World) (k : string) : option CachedData :=
  q ← queries w !! k; qdata q.

(** [queryClient.getQueryData([k])]. *)
Definition getQueryData (k : string) : M (option CachedData) :=
  read (fun w => cached_data w k).

(** ** [main.tsx]: the bearer-token resolver

    [OpenAPI.TOKEN = async () => localStorage.getItem("access_token") || ""] *)
Definition OpenAPI_TOKEN : M string :=
  t <- getItem "access_token" ;;
  ret (match t with
       | Some s => s   (* the empty string is falsy and gives "" as well *)
       | None => ""
       end).

(** ** Helpers of the components *)

(** [useCustomToast]: the toast is an observable effect. *)
Definition showToast (title description status : string) : M unit :=
  emit (EToast title description status).

(** [reset] of [useForm], [onClose] of [useDisclosure], [navigate] of
    [useNavigate]. *)
Definition reset : M unit := emit EFormReset.
Definition onClose : M unit := emit EClose.
Definition navigate (to : string) : M unit := emit (ENavigate to).

(** [String.prototype.toLowerCase] on the ASCII letters. *)
Definition lower_ascii (c : ascii) : ascii :=
  let n := nat_of_ascii c in
  if (65 <=? n)%nat && (n <=? 90)%nat then ascii_of_nat (n + 32) else c.

Fixpoint toLowerCase (s : string) : string :=
  match s with
  | EmptyString => EmptyString
  | String c s' => String (lower_ascii c) (toLowerCase s')
  end.

(** [(err.body as any)?.detail]: only an [ApiError] has a body. *)
Definition errDetail (err : Thrown) : option ErrDetail :=
  match err with
  | ThrowApi e => detail e
  | ThrowError _ | ThrowRedirect _ => None
  end.

(** The template literal [`${errDetail}`]. *)
Definition template (d : option ErrDetail) : string :=
  match d with
  | Some (DString s) => s
  | Some DObject => "[object Object]"
  | None => "undefined"
  end.

(** ** [useMutation] of the query library

    [mutate] awaits [mutationFn], then [onSuccess] and [onSettled]; an
    error thrown on the way runs [onError] and [onSettled]; [mutate]
    itself swallows the error.  A callback a component leaves out is
    [ret tt]. *)
Record MutationOptions (V : Type) := {
  mutationFn : V -> M unit;
  onSuccess : M unit;
  onError : Thrown -> M unit;
  onSettled : M unit;
}.
Arguments mutationFn {V} _ _.
Arguments onSuccess {V} _.
Arguments onError {V} _ _.
Arguments onSettled {V} _.

Definition mutate {V} (o : MutationOptions V) (v : V) : M unit :=
  try_catch
    (try_catch
       (mutationFn o v ;; onSuccess o ;; onSettled o)
       (fun e => onError o e ;; onSettled o ;; throw e))
    (fun _ => ret tt).

(** ** The generated client and the session hook *)

(** Modelled from the spec: the request core of the generated client
    ([client/core]) is not among the sources.  Section 4.2: every request
    attaches [Authorization: Bearer <token>] when a token is present and
    omits the header otherwise.  The resolver answers [""] when the store
    holds no token, so the empty string is the absent token. *)
Definition getHeaders (token : string) : Headers :=
  if decide (token = "") then [] else [("Authorization", "Bearer " +:+ token)].

Definition has_authorization (h : Headers) : bool :=
  bool_decide (is_Some (search_get "Authorization" h)).

(** Modelled from the spec: [isLoggedIn] of [hooks/useAuth], which is not
    among the sources.  Section 4.3: a pure function of Token Store
    presence. *)
Definition isLoggedIn (w : World) : bool :=
  bool_decide (is_Some (localStorage w !! "access_token")).

(** Modelled from the spec: [logout] of [hooks/useAuth], which is not
    among the sources.  Section 4.3: Token Store.clear(); never calls the
    server. *)
Definition logout : M unit := removeItem "access_token".

Section Client.

(** The backend is an opaque collaborator: it answers each request,
    given the headers it arrives with. *)
Variable server : Headers -> ApiCall -> Response.

(** Modelled from the spec: the request function of the generated client
    is not among the sources.  Section 4.2: the resolver is invoked per
    request; a non-2xx response becomes a typed error with the status and
    the [detail] of the body; no response is a different error. *)
Definition request (c : ApiCall) : M string :=
  token <- OpenAPI_TOKEN ;;
  let h := getHeaders token in
  emit (ERequest h c) ;;
  match server h c with
  | RespOk body => ret body
  | RespErr e => throw (ThrowApi e)
  | RespNone => throw (ThrowError "Network Error")
  end.

(** A service method whose result the caller drops. *)
Definition call (c : ApiCall) : M unit := request c ;; ret tt.

(** Modelled from the spec: [login] of [hooks/useAuth], which is not
    among the sources.  Section 4.3: on success Token Store.set(token);
    on failure the error surfaces and the store is left alone. *)
Definition login (email password : string) : M unit :=
  token <- request (LoginAccessToken email password) ;;
  setItem "access_token" token.

(** *** [components/Common/DeleteAlert.tsx] *)

Definition deleteEntity (type : string) (id : Z) : M unit :=
  if String.eqb type "Item" then call (DeleteItem id)
  else if String.eqb type "User" then call (DeleteUser id)
  else throw (ThrowError ("Unexpected type: " +:+ type)).

Definition Delete_mutation (type : string) : MutationOptions Z :=
  {| mutationFn := deleteEntity type;
     onSuccess :=
       showToast "Success"
         ("The " +:+ toLowerCase type +:+ " was deleted successfully.")
         "success" ;;
       onClose;
     onError := fun _ =>
       showToast "An error occurred."
         ("An error occurred while deleting the " +:+ toLowerCase type +:+ ".")
         "error";
     onSettled :=
       invalidateQueries (if String.eqb type "Item" then "items" else "users")
  |}.

Definition Delete_onSubmit (type : string) (id : Z) : M unit :=
  mutate (Delete_mutation type) id.

(** *** [components/UserSettings/ChangePassword.tsx] *)

Record UpdatePassword := {
  current_password : string;
  new_password : string;
}.

Definition ChangePassword_mutation : MutationOptions UpdatePassword :=
  {| mutationFn := fun data =>
       call (UpdatePasswordMe (current_password data) (new_password data));
     onSuccess := showToast "Success!" "Password updated." "success" ;; reset;
     onError := fun err =>
       showToast "Something went wrong." (template (errDetail err)) "error";
     onSettled := ret tt   (* the component passes no [onSettled] *)
  |}.

Definition ChangePassword_onSubmit (data : UpdatePassword) : M unit :=
  mutate ChangePassword_mutation data.

(** *** [components/UserSettings/UserInformation.tsx] *)

Record UserUpdateMe := {
  me_full_name : option string;
  me_email : option string;
}.

Definition UserInformation_mutation : MutationOptions UserUpdateMe :=
  {| mutationFn := fun data =>
       call (UpdateUserMe (me_full_name data) (me_email data));
     onSuccess := showToast "Success!" "User updated successfully." "success";
     onError := fun err =>
       showToast "Something went wrong." (template (errDetail err)) "error";
     onSettled :=
       invalidateQueries "users" ;;
       invalidateQueries "currentUser"
  |}.

Definition UserInformation_onSubmit (data : UserUpdateMe) : M unit :=
  mutate UserInformation_mutation data.

(** *** [components/Admin/AddUser.tsx] *)

Record UserCreate := {
  uc_email : string;
  uc_password : string;
  uc_full_name : string;
  uc_is_superuser : bool;
  uc_is_active : bool;
}.

Definition AddUser_mutation : MutationOptions UserCreate :=
  {| mutationFn := fun data =>
       call (CreateUser (uc_email data) (uc_password data) (uc_full_name data)
               (uc_is_superuser data) (uc_is_active data));
     onSuccess :=
       showToast "Success!" "User created successfully." "success" ;;
       reset ;;
       onClose;
     onError := fun err =>
       showToast "Something went wrong." (template (errDetail err)) "error";
     onSettled := invalidateQueries "users"
  |}.

Definition AddUser_onSubmit (data : UserCreate) : M unit :=
  mutate AddUser_mutation data.

(** *** [components/UserSettings/DeleteConfirmation.tsx] *)

Definition DeleteConfirmation_mutation : MutationOptions Z :=
  {| mutationFn := fun id => call (DeleteUser id);
     onSuccess :=
       showToast "Success" "Your account has been successfully deleted."
         "success" ;;
       logout ;;
       onClose;
     onError := fun err =>
       showToast "Something went wrong." (template (errDetail err)) "error";
     onSettled := invalidateQueries "currentUser"
  |}.

(** [mutation.mutate(currentUser!.id)]: the non-null assertion is erased
    at run time, so a missing current user is a [TypeError]. *)
Definition DeleteConfirmation_onSubmit : M unit :=
  currentUser <- getQueryData "currentUser" ;;
  match currentUser with
  | Some (CUser u) => mutate DeleteConfirmation_mutation (user_id u)
  | _ => throw (ThrowError "TypeError")
  end.

(** *** [routes/reset-password.tsx] *)

Definition resetPassword (new_pw : string) : M unit :=
  token <- URLSearchParams_get "token" ;;
  match token with
  | None => ret tt
  | Some t =>
      if decide (t = "") then ret tt   (* [!token] holds for [""] too *)
      else call (ResetPasswordCall new_pw t)
  end.

Definition ResetPassword_mutation : MutationOptions string :=
  {| mutationFn := resetPassword;
     onSuccess :=
       showToast "Success!" "Password updated." "success" ;;
       reset ;;
       navigate "/login";
     onError := fun err =>
       showToast "Something went wrong." (template (errDetail err)) "error";
     onSettled := ret tt   (* the component passes no [onSettled] *)
  |}.

Definition ResetPassword_onSubmit (new_pw : string) : M unit :=
  mutate ResetPassword_mutation new_pw.

(** *** The mutation forms that are not among the sources *)

(** Modelled from the spec: [components/Admin/EditUser.tsx],
    [components/Items/AddItem.tsx] and [components/Items/EditItem.tsx]
    are not among the sources.  Section 4.4: a mutation issues exactly
    one write request and, on settlement, invalidates the cache entries
    its row of the table names. *)
Definition table_mutation (c : ApiCall) (key : string) : MutationOptions unit :=
  {| mutationFn := fun _ => call c;
     onSuccess := ret tt;
     onError := fun _ => ret tt;
     onSettled := invalidateQueries key
  |}.

Definition EditUser_onSubmit (id : Z) (new_email : string) : M unit :=
  mutate (table_mutation (UpdateUser id new_email) "users") tt.

Definition AddItem_onSubmit (new_title : string) : M unit :=
  mutate (table_mutation (CreateItem new_title) "items") tt.

Definition EditItem_onSubmit (id : Z) (new_title : string) : M unit :=
  mutate (table_mutation (UpdateItem id new_title) "items") tt.

(** *** Every mutation of the application *)

Inductive Mutation :=
| MCreateUser (data : UserCreate)
| MUpdateUser (id : Z) (new_email : string)
| MDeleteUser (id : Z)
| MCreateItem (new_title : string)
| MUpdateItem (id : Z) (new_title : string)
| MDeleteItem (id : Z)
| MUpdateMe (data : UserUpdateMe)
| MChangePassword (data : UpdatePassword)
| MDeleteAccount.

Definition submit (m : Mutation) : M unit :=
  match m with
  | MCreateUser data => AddUser_onSubmit data
  | MUpdateUser id e => EditUser_onSubmit id e
  | MDeleteUser id => Delete_onSubmit "User" id
  | MCreateItem t => AddItem_onSubmit t
  | MUpdateItem id t => EditItem_onSubmit id t
  | MDeleteItem id => Delete_onSubmit "Item" id
  | MUpdateMe data => UserInformation_onSubmit data
  | MChangePassword data => ChangePassword_onSubmit data
  | MDeleteAccount => DeleteConfirmation_onSubmit
  end.

End Client.

(** ** Routes and the router *)

Record RouteDef := {
  route_path : string;
  component : string;
  beforeLoad : M unit;
}.

Section Routes.

(** [isLoggedIn] is imported from [hooks/useAuth]; the routes are
    written against whatever it answers in the current world. *)
Variable loggedIn : World -> bool.

(** [routes/_layout.tsx] *)
Definition Layout_beforeLoad : M unit :=
  logged <- read loggedIn ;;
  if negb logged then throw (ThrowRedirect "/login") else ret tt.

Definition Layout_Route : RouteDef :=
  {| route_path := "/_layout";
     component := "Layout";
     beforeLoad := Layout_beforeLoad |}.

(** [routes/reset-password.tsx] *)
Definition ResetPassword_beforeLoad : M unit :=
  logged <- read loggedIn ;;
  if logged then throw (ThrowRedirect "/") else ret tt.

Definition ResetPassword_Route : RouteDef :=
  {| route_path := "/reset-password";
     component := "ResetPassword";
     beforeLoad := ResetPassword_beforeLoad |}.

End Routes.

(** How a navigation ends. *)
Inductive NavResult :=
| Entered (component : string)
| Redirected (to : string)
| Failed (e : Thrown).

(** The router awaits [beforeLoad] of the matched route before it renders
    the route's component; a thrown redirect replaces the navigation. *)
Definition enter (r : RouteDef) : M NavResult :=
  try_catch
    (beforeLoad r ;;
     emit (ERender (component r)) ;;
     ret (Entered (component r)))
    (fun e =>
       match e with
       | ThrowRedirect to => emit (ENavigate to) ;; ret (Redirected to)
       | _ => ret (Failed e)
       end).

(** ** [routes/_layout/settings.tsx] *)

Inductive TabComponent :=
| UserInformation
| ChangePassword
| Appearance
| DeleteAccount.

Record TabConfig := {
  tab_title : string;
  tab_component : TabComponent;
}.

Definition tabsConfig : list TabConfig :=
  [ {| tab_title := "My profile"; tab_component := UserInformation |};
    {| tab_title := "Password"; tab_component := ChangePassword |};
    {| tab_title := "Appearance"; tab_component := Appearance |};
    {| tab_title := "Danger zone"; tab_component := DeleteAccount |} ].

(** [currentUser?.is_superuser] as a condition: an absent user is falsy. *)
Definition optional_is_superuser (currentUser : option CachedData) : bool :=
  match currentUser with
  | Some (CUser u) => is_superuser u
  | _ => false
  end.

(** The tabs [UserSettings] renders, in order. *)
Definition UserSettings : M (list TabConfig) :=
  currentUser <- getQueryData "currentUser" ;;
  let finalTabs :=
    if optional_is_superuser currentUser then take 3 tabsConfig else tabsConfig in
  ret finalTabs.

(** ** Runs of the application *)

Inductive Action :=
| ALogin (email password : string)
| ALogout
| ASubmit (m : Mutation)
| AResetPassword (new_pw : string)
| AEnterLayout
| AEnterResetPassword
| AOpenSettings
| AResolveToken.

Section Runs.

Variable server : Headers -> ApiCall -> Response.

Definition step (a : Action) : M unit :=
  match a with
  | ALogin e p => login server e p
  | ALogout => logout
  | ASubmit m => submit server m
  | AResetPassword p => ResetPassword_onSubmit server p
  | AEnterLayout => enter (Layout_Route isLoggedIn) ;; ret tt
  | AEnterResetPassword => enter (ResetPassword_Route isLoggedIn) ;; ret tt
  | AOpenSettings => UserSettings ;; ret tt
  | AResolveToken => OpenAPI_TOKEN ;; ret tt
  end.

(** The world after a list of actions; an action that throws leaves
    the world it reached. *)
Fixpoint run (l : list Action) (w : World) : World :=
  match l with
  | [] => w
  | a :: l' => run l' (world_after (step a) w)
  end.

End Runs.

(** The actions that are neither a login nor a logout.  Deleting the own
    account logs out when it succeeds. *)
Definition keeps_session (a : Action) : bool :=
  match a with
  | ALogin _ _ | ALogout | ASubmit MDeleteAccount => false
  | _ => true
  end.

(** ** Reading the effect log *)

Definition cache_op_of (e : Effect) : option CacheOp :=
  match e with
  | ECache op => Some op
  | _ => None
  end.

Definition cache_ops (l : list Effect) : list CacheOp :=
  omap cache_op_of l.

Definition invalidated_key (e : Effect) : option string :=
  match e with
  | ECache (Invalidate k) => Some k
  | _ => None
  end.

(** The keys invalidated in a log, in order. *)
Definition invalidated_keys (l : list Effect) : list string :=
  omap invalidated_key l.

Definition request_of (e : Effect) : option (Headers * ApiCall) :=
  match e with
  | ERequest h c => Some (h, c)
  | _ => None
  end.

Definition requests (l : list Effect) : list (Headers * ApiCall) :=
  omap request_of l.

Definition rendered_of (e : Effect) : option string :=
  match e with
  | ERender c => Some c
  | _ => None
  end.

Definition rendered (l : list Effect) : list string :=
  omap rendered_of l.

(** The effects a handler adds to the log of the world it starts in. *)
Definition trace {A} (m : M A) (w : World) : list Effect :=
  drop (length (effects w)) (effects (world_after m w)).

(** ** [components/Common/SidebarItems.tsx] *)

Inductive SidebarIcon :=
| FiHome
| FiBriefcase
| FiSettings
| FiUsers.

Record SidebarItem := {
  sb_icon : SidebarIcon;
  sb_title : string;
  sb_path : string;
}.

Definition items : list SidebarItem :=
  [ {| sb_icon := FiHome; sb_title := "Dashboard"; sb_path := "/" |};
    {| sb_icon := FiBriefcase; sb_title := "Items"; sb_path := "/items" |};
    {| sb_icon := FiSettings; sb_title := "User Settings";
       sb_path := "/settings" |} ].

(** The links [SidebarItems] renders, in order. *)
Definition SidebarItems : M (list SidebarItem) :=
  currentUser <- getQueryData "currentUser" ;;
  let finalItems :=
    if optional_is_superuser currentUser
    then items ++ [ {| sb_icon := FiUsers; sb_title := "Admin";
                       sb_path := "/admin" |} ]
    else items in
  ret finalItems.

(** ** [components/Common/ActionsMenu.tsx] *)

(** [value: ItemPublic | UserPublic] *)
Inductive RowValue :=
| UserValue (u : UserPublic)
| ItemValue (i : ItemPublic).

Definition value_id (v : RowValue) : Z :=
  match v with
  | UserValue u => user_id u
  | ItemValue i => item_id i
  end.

(** The edit modal the menu mounts; the value is handed over by a cast. *)
Inductive EditModal :=
| EditUser (user : RowValue)
| EditItem (item : RowValue).

(** What the menu renders: the state of its button, its two entries, the
    edit modal and the props of the [Delete] dialog. *)
Record ActionsMenuView := {
  am_isDisabled : bool;
  am_edit_label : string;
  am_delete_label : string;
  am_edit : EditModal;
  am_delete_type : string;
  am_delete_id : Z;
}.

(** [disabled] is optional; left out, the button is enabled. *)
Definition ActionsMenu (type : string) (value : RowValue)
    (disabled : option bool) : ActionsMenuView :=
  {| am_isDisabled := default false disabled;
     am_edit_label := "Edit " +:+ type;
     am_delete_label := "Delete " +:+ type;
     am_edit := if String.eqb type "User" then EditUser value else EditItem value;
     am_delete_type := type;
     am_delete_id := value_id value |}.

(** ** [routes/_layout/admin.tsx]: the rows of the users table *)

Record MemberRow := {
  mr_key : Z;
  mr_name : string;
  mr_name_color : string;
  mr_you : bool;
  mr_email : string;
  mr_role : string;
  mr_status : string;
  mr_status_color : string;
  mr_actions : ActionsMenuView;
}.

(** [x || "N/A"] on an optional string: absent and empty are falsy. *)
Definition or_NA (x : option string) : string :=
  match x with
  | Some s => if decide (s = "") then "N/A" else s
  | None => "N/A"
  end.

(** [!x] on an optional string. *)
Definition falsy (x : option string) : bool :=
  match x with
  | Some s => bool_decide (s = "")
  | None => true
  end.

(** [currentUser?.id === user.id]: without a current user the left side
    is [undefined] and the comparison is false. *)
Definition is_current (currentUser : option CachedData) (user : UserPublic)
    : bool :=
  match currentUser with
  | Some (CUser u) => bool_decide (user_id u = user_id user)
  | _ => false
  end.

Definition MembersTableBody_row (currentUser : option CachedData)
    (user : UserPublic) : MemberRow :=
  {| mr_key := user_id user;
     mr_name := or_NA (full_name user);
     mr_name_color := if falsy (full_name user) then "ui.dim" else "inherit";
     mr_you := is_current currentUser user;
     mr_email := email user;
     mr_role := if is_superuser user then "Superuser" else "User";
     mr_status := if is_active user then "Active" else "Inactive";
     mr_status_color := if is_active user then "ui.success" else "ui.danger";
     mr_actions :=
       ActionsMenu "User" (UserValue user)
         (Some (if is_current currentUser user then true else false)) |}.

(** The rows rendered for the fetched [users.data]. *)
Definition MembersTableBody (users : list UserPublic) : M (list MemberRow) :=
  currentUser <- getQueryData "currentUser" ;;
  ret (MembersTableBody_row currentUser <$> users).

(** ** [routes/_layout/items.tsx]: the rows of the items table *)

Record ItemRow := {
  ir_key : Z;
  ir_id : Z;
  ir_title : string;
  ir_description : string;
  ir_description_color : string;
  ir_actions : ActionsMenuView;
}.

Definition ItemsTableBody_row (item : ItemPublic) : ItemRow :=
  {| ir_key := item_id item;
     ir_id := item_id item;
     ir_title := title item;
     ir_description := or_NA (description item);
     ir_description_color :=
       if falsy (description item) then "ui.dim" else "inherit";
     ir_actions := ActionsMenu "Item" (ItemValue item) None |}.

Definition ItemsTableBody (items_data : list ItemPublic) : list ItemRow :=
  ItemsTableBody_row <$> items_data.

(** Confirming the [Delete] dialog a menu mounts. *)
Definition confirm_delete (server : Headers -> ApiCall -> Response)
    (v : ActionsMenuView) : M unit :=
  Delete_onSubmit server (am_delete_type v) (am_delete_id v).

(** A server that never answers. *)
Definition silent_server (h : Headers) (c : ApiCall) : Response := RespNone.

(** Whether the server accepts a request. *)
Definition accepted (r : Response) : Prop :=
  match r with
  | RespOk _ => True
  | _ => False
  end.

(** ** Relations between the world before and after a handler *)

(** A handler keeps [R] when every world it starts in is related to the
    world it leaves. *)
Definition preserves (R : relation World) {A} (m : M A) : Prop :=
  forall w, R w (world_after m w).

Definition same_storage (w w' : World) : Prop :=
  localStorage w' = localStorage w.

Definition same_data (w w' : World) : Prop :=
  forall k, cached_data w' k = cached_data w k.

(** The log only grows, and by effects that satisfy [P]. *)
Definition log_grows (P : Effect -> Prop) (w w' : World) : Prop :=
  exists l, effects w' = effects w ++ l /\ Forall P l.

(** An effect that is not a write into the cache. *)
Definition not_cache_write (e : Effect) : Prop :=
  match e with
  | ECache (SetData _ _) => False
  | _ => True
  end.

(** The token the store holds, [""] when it holds none. *)
Definition stored_token (w : World) : string :=
  match localStorage w !! "access_token" with
  | Some s => s
  | None => ""
  end.

(** ** Sample worlds and servers *)

(** A server that accepts every request; a login is answered with a
    token. *)
Definition accepting_server (h : Headers) (c : ApiCall) : Response :=
  match c with
  | LoginAccessToken _ _ => RespOk "tok-1"
  | _ => RespOk ""
  end.

(** A server that rejects every request with status 400. *)
Definition rejecting_server (h : Headers) (c : ApiCall) : Response :=
  RespErr {| status := 400; detail := Some (DString "Incorrect password") |}.

Definition alice : UserPublic :=
  {| user_id := 7; email := "alice@example.com"; full_name := Some "Alice";
     is_superuser := false; is_active := true |}.

Definition root_user : UserPublic :=
  {| user_id := 1; email := "admin@example.com"; full_name := None;
     is_superuser := true; is_active := true |}.

Definition fresh (d : CachedData) : QueryState :=
  {| qdata := Some d; isInvalidated := false |}.

(** Nobody is signed in and nothing is cached. *)
Definition fresh_world : World :=
  {| localStorage := ∅; queries := ∅; location_search := []; effects := [] |}.

(** A signed-in session of [u] with the three queries fetched. *)
Definition session_of (u : UserPublic) : World :=
  {| localStorage := {[ "access_token" := "tok-1" ]};
     queries :=
       <["currentUser" := fresh (CUser u)]>
         (<["users" := fresh (CUsers [root_user; alice])]>
            {[ "items" := fresh (CItems []) ]});
     location_search := [];
     effects := [] |}.

Definition sample_passwords : UpdatePassword :=
  {| current_password := "old-secret"; new_password := "new-secret" |}.

(** * Properties *)

(** ** Invariants of handlers

    A relation between the world a handler starts in and the world it
    leaves is kept by every handler built from steps that keep it, as
    long as the relation is a preorder. *)

Section Preserves.

Context (R : relation World) `{!PreOrder R}.

Lemma preserves_ret {A} (a : A) : preserves R (ret a).
Proof. intros w. reflexivity. Qed.

Lemma preserves_throw {A} (e : Thrown) : preserves R (@throw A e).
Proof. intros w. reflexivity. Qed.

Lemma preserves_read {A} (f : World -> A) : preserves R (read f).
Proof. intros w. reflexivity. Qed.

Lemma preserves_update (f : World -> World) :
  (forall w, R w (f w)) -> preserves R (update f).
Proof. intros H w. apply H. Qed.

Lemma preserves_bind {A B} (m : M A) (k : A -> M B) :
  preserves R m -> (forall a, preserves R (k a)) -> preserves R (bind m k).
Proof.
  intros Hm Hk w. specialize (Hm w).
  unfold world_after, bind in *.
  destruct (m w) as [[a|e] w1]; cbn in *; [|done].
  etransitivity; [exact Hm|]. apply Hk.
Qed.

Lemma preserves_try_catch {A} (m : M A) (h : Thrown -> M A) :
  preserves R m -> (forall e, preserves R (h e)) -> preserves R (try_catch m h).
Proof.
  intros Hm Hh w. specialize (Hm w).
  unfold world_after, try_catch in *.
  destruct (m w) as [[a|e] w1]; cbn in *; [done|].
  etransitivity; [exact Hm|]. apply Hh.
Qed.

Lemma preserves_mutate {V} (o : MutationOptions V) (v : V) :
  preserves R (mutationFn o v) ->
  preserves R (onSuccess o) ->
  (forall e, preserves R (onError o e)) ->
  preserves R (onSettled o) ->
  preserves R (mutate o v).
Proof.
  intros Hf Hs He Hd. unfold mutate.
  apply preserves_try_catch; [|intros; apply preserves_ret].
  apply preserves_try_catch.
  - repeat (apply preserves_bind; [|intros]); assumption.
  - intros e. repeat (apply preserves_bind; [|intros]); auto.
    apply preserves_throw.
Qed.

End Preserves.

Arguments preserves_ret {R _ A} a.
Arguments preserves_throw {R _ A} e.
Arguments preserves_read {R _ A} f.
Arguments preserves_update {R} f _.
Arguments preserves_bind {R _ A B} m k _ _.
Arguments preserves_try_catch {R _ A} m h _ _.
Arguments preserves_mutate {R _ V} o v _ _ _ _.

#[local] Instance same_storage_preorder : PreOrder same_storage.
Proof.
  split; [intros w; reflexivity|].
  intros a b c Hab Hbc. unfold same_storage in *. congruence.
Qed.

#[local] Instance same_data_preorder : PreOrder same_data.
Proof.
  split; [intros w k; reflexivity|].
  intros a b c Hab Hbc k. rewrite Hbc. apply Hab.
Qed.

#[local] Instance log_grows_preorder P : PreOrder (log_grows P).
Proof.
  split.
  - intros w. exists []. split; [by rewrite app_nil_r | constructor].
  - intros a b c (l1 & H1 & F1) (l2 & H2 & F2).
    exists (l1 ++ l2). split; [by rewrite H2, H1, app_assoc|].
    by apply Forall_app.
Qed.

Lemma cached_data_mark_stale (w : World) (k k' : string) :
  cached_data (with_queries (alter mark_stale k) w) k' = cached_data w k'.
Proof.
  unfold cached_data, with_queries. cbn.
  rewrite lookup_alter. case_decide; [subst|done].
  destruct (queries w !! k'); reflexivity.
Qed.

Lemma log_effect_grows (P : Effect -> Prop) (e : Effect) (w : World) :
  P e -> log_grows P w (log_effect e w).
Proof. intros H. exists [e]. split; [done|]. by constructor. Qed.

(** Unfolding the components down to the steps of the monad. *)
Ltac unfold_handlers :=
  unfold step, submit, AddUser_onSubmit, EditUser_onSubmit, AddItem_onSubmit,
    EditItem_onSubmit, Delete_onSubmit, UserInformation_onSubmit,
    ChangePassword_onSubmit, DeleteConfirmation_onSubmit,
    ResetPassword_onSubmit, AddUser_mutation, table_mutation, Delete_mutation,
    UserInformation_mutation, ChangePassword_mutation,
    DeleteConfirmation_mutation, ResetPassword_mutation, deleteEntity,
    resetPassword, UserSettings, enter, Layout_Route, ResetPassword_Route,
    Layout_beforeLoad, ResetPassword_beforeLoad, login, logout, call, request,
    OpenAPI_TOKEN, showToast, reset, onClose, navigate, getQueryData,
    URLSearchParams_get, getItem, setItem, removeItem, invalidateQueries, emit;
  cbn [beforeLoad component mutationFn onSuccess onError onSettled].

(** One step of a proof that a handler keeps a relation: split the
    handler along its structure, case on what it branches on. *)
Ltac preserves_step :=
  match goal with
  | |- preserves _ (ret _) => apply preserves_ret
  | |- preserves _ (throw _) => apply preserves_throw
  | |- preserves _ (read _) => apply preserves_read
  | |- preserves _ (bind _ _) => apply preserves_bind; [|intros ?]
  | |- preserves _ (try_catch _ _) => apply preserves_try_catch; [|intros ?]
  | |- preserves _ (mutate _ _) =>
      apply preserves_mutate; [| |intros ?|];
      cbn [mutationFn onSuccess onError onSettled]
  | |- preserves _ (update _) => apply preserves_update; intros ?
  | |- preserves _ (match ?x with _ => _ end) => destruct x
  end.

Lemma same_storage_log (e : Effect) (w : World) :
  same_storage w (log_effect e w).
Proof. reflexivity. Qed.

Lemma same_storage_invalidate (k : string) (w : World) :
  same_storage w
    (log_effect (ECache (Invalidate k)) (with_queries (alter mark_stale k) w)).
Proof. reflexivity. Qed.

Lemma same_data_log (e : Effect) (w : World) : same_data w (log_effect e w).
Proof. intros k. reflexivity. Qed.

Lemma same_data_storage f (w : World) : same_data w (with_storage f w).
Proof. intros k. reflexivity. Qed.

Lemma same_data_invalidate (k : string) (w : World) :
  same_data w
    (log_effect (ECache (Invalidate k)) (with_queries (alter mark_stale k) w)).
Proof. intros k'. apply (cached_data_mark_stale w k k'). Qed.

Lemma log_grows_storage P f (w : World) : log_grows P w (with_storage f w).
Proof. exists []. split; [by rewrite app_nil_r | constructor]. Qed.

Lemma log_grows_invalidate (k : string) (w : World) :
  log_grows not_cache_write w
    (log_effect (ECache (Invalidate k)) (with_queries (alter mark_stale k) w)).
Proof. exists [ECache (Invalidate k)]. split; [done|]. by repeat constructor. Qed.

Create HintDb handlers.
#[local] Hint Resolve same_storage_log same_storage_invalidate same_data_log
  same_data_storage same_data_invalidate log_grows_storage
  log_grows_invalidate : handlers.
#[local] Hint Extern 1 (log_grows _ _ (log_effect _ _)) =>
  apply log_effect_grows; exact I : handlers.

Ltac preserves_tac :=
  unfold_handlers; repeat preserves_step; eauto with handlers.

(** The token store has a single writer: an action that is neither a
    login nor a logout leaves [localStorage] as it found it. *)
Lemma step_same_storage server (a : Action) :
  keeps_session a = true -> preserves same_storage (step server a).
Proof.
  intros Hk.
  destruct a as [| |m| | | | |]; try discriminate Hk; [destruct m|..];
    try discriminate Hk; preserves_tac.
Qed.

(** No mutation changes the data held in the cache. *)
Lemma submit_same_data server (m : Mutation) :
  preserves same_data (submit server m).
Proof. destruct m; preserves_tac. Qed.

(** No mutation logs a write into the cache. *)
Lemma submit_no_cache_write server (m : Mutation) :
  preserves (log_grows not_cache_write) (submit server m).
Proof. destruct m; preserves_tac. Qed.

(** ** Running a handler on a world *)

Ltac run_handler :=
  cbv beta iota zeta delta
    [trace world_after outcome_of step submit AddUser_onSubmit
     EditUser_onSubmit AddItem_onSubmit EditItem_onSubmit Delete_onSubmit
     UserInformation_onSubmit ChangePassword_onSubmit
     DeleteConfirmation_onSubmit ResetPassword_onSubmit AddUser_mutation
     table_mutation Delete_mutation UserInformation_mutation
     ChangePassword_mutation DeleteConfirmation_mutation
     ResetPassword_mutation deleteEntity resetPassword UserSettings enter
     Layout_Route ResetPassword_Route Layout_beforeLoad
     ResetPassword_beforeLoad login logout call request OpenAPI_TOKEN
     showToast reset onClose navigate getQueryData URLSearchParams_get
     getItem setItem removeItem invalidateQueries setQueryData emit mutate
     try_catch bind ret throw read update fst snd beforeLoad component
     mutationFn onSuccess onError onSettled String.eqb Ascii.eqb Bool.eqb
     negb];
  repeat match goal with
  | |- context [match localStorage ?w !! "access_token" with
                | Some s => s
                | None => ""
                end] => fold (stored_token w)
  end.

(** Case on what the server answers to the request in the goal. *)
Ltac answer :=
  match goal with
  | |- context [match ?r with RespOk _ => _ | RespErr _ => _ | RespNone => _ end] =>
      destruct r eqn:?
  end.

(** After the run: the log is the old one with the new effects appended. *)
Ltac read_log :=
  cbn [fst snd effects queries localStorage location_search log_effect
       with_queries with_storage];
  rewrite <- ?app_assoc; rewrite ?drop_app_length.

(** ** The delete dialog of users and items *)

(** The dialog on concrete runs: an accepted deletion of a user, a
    rejected deletion of an item, and a type that is neither. *)
Example Delete_user_accepted :
  trace (Delete_onSubmit accepting_server "User" 7) (session_of root_user)
    = [ERequest [("Authorization", "Bearer tok-1")] (DeleteUser 7);
       EToast "Success" "The user was deleted successfully." "success";
       EClose;
       ECache (Invalidate "users")].
Proof. by vm_compute. Qed.

Example Delete_item_rejected :
  trace (Delete_onSubmit rejecting_server "Item" 3) (session_of alice)
    = [ERequest [("Authorization", "Bearer tok-1")] (DeleteItem 3);
       EToast "An error occurred."
         "An error occurred while deleting the item." "error";
       ECache (Invalidate "items")].
Proof. by vm_compute. Qed.

Example Delete_unexpected_type :
  trace (Delete_onSubmit accepting_server "Order" 3) (session_of alice)
    = [EToast "An error occurred."
         "An error occurred while deleting the order." "error";
       ECache (Invalidate "users")].
Proof. by vm_compute. Qed.

Example Delete_user_marks_users_stale :
  isInvalidated <$>
    (queries (world_after (Delete_onSubmit rejecting_server "User" 7)
                (session_of root_user)) !! "users") = Some true /\
  isInvalidated <$>
    (queries (world_after (Delete_onSubmit rejecting_server "User" 7)
                (session_of root_user)) !! "items") = Some false.
Proof. by vm_compute. Qed.

(** C1. A delete mutation on a User or on an Item invalidates, when it
    settles, exactly the collection key it is mapped to: ["users"] for a
    User and ["items"] for an Item.  This holds for whatever the server
    answers (success, an error status or no response), and the only
    change to the cache is the stale mark on that key. *)
Theorem Delete_settled_invalidates_mapped_key
    (server : Headers -> ApiCall -> Response) (id : Z) (w : World) :
  (invalidated_keys (trace (Delete_onSubmit server "User" id) w) = ["users"] /\
   queries (world_after (Delete_onSubmit server "User" id) w)
     = alter mark_stale "users" (queries w)) /\
  (invalidated_keys (trace (Delete_onSubmit server "Item" id) w) = ["items"] /\
   queries (world_after (Delete_onSubmit server "Item" id) w)
     = alter mark_stale "items" (queries w)).
Proof.
  repeat split; run_handler; answer; read_log; reflexivity.
Qed.

(** ** Changing the password *)

(** C2, as stated, fails: in a signed-in session, a change of password
    that the server accepts settles without invalidating ["users"] or
    ["currentUser"]. *)
Lemma ChangePassword_invalidates_users_and_currentUser_fails :
  ~ ("users" ∈ invalidated_keys
       (trace (ChangePassword_onSubmit accepting_server sample_passwords)
          (session_of alice)) /\
     "currentUser" ∈ invalidated_keys
       (trace (ChangePassword_onSubmit accepting_server sample_passwords)
          (session_of alice))).
Proof.
  intros [H _]. vm_compute in H. by apply elem_of_nil in H.
Qed.

(** C2, amended.  A change-password mutation invalidates no cache entry
    when it settles, whatever the server answers, and leaves the cache as
    it was: the component has no [onSettled] and never touches the query
    client. *)
Theorem ChangePassword_settled_invalidates_nothing
    (server : Headers -> ApiCall -> Response) (data : UpdatePassword)
    (w : World) :
  invalidated_keys (trace (ChangePassword_onSubmit server data) w) = [] /\
  queries (world_after (ChangePassword_onSubmit server data) w) = queries w.
Proof.
  split; run_handler; answer; read_log; reflexivity.
Qed.

(** ** Updating the own profile *)

(** C6. An update-me mutation invalidates, when it settles, both
    ["users"] and ["currentUser"], on success as on failure: whatever the
    server answers, these two keys are the invalidations logged and the
    cache carries the stale mark on both. *)
Theorem UserInformation_settled_invalidates_users_and_currentUser
    (server : Headers -> ApiCall -> Response) (data : UserUpdateMe)
    (w : World) :
  invalidated_keys (trace (UserInformation_onSubmit server data) w)
    = ["users"; "currentUser"] /\
  queries (world_after (UserInformation_onSubmit server data) w)
    = alter mark_stale "currentUser" (alter mark_stale "users" (queries w)).
Proof.
  split; run_handler; answer; read_log; reflexivity.
Qed.

(** ** Resetting the password *)

(** A reset with a token in the page address does reach the server, and
    an empty token counts as none. *)
Example ResetPassword_with_token :
  requests
    (trace (ResetPassword_onSubmit accepting_server "new-secret")
       {| localStorage := ∅; queries := ∅;
          location_search := [("token", "abc")]; effects := [] |})
    = [([], ResetPasswordCall "new-secret" "abc")].
Proof. by vm_compute. Qed.

Example ResetPassword_with_empty_token :
  trace (ResetPassword_onSubmit accepting_server "new-secret")
    {| localStorage := ∅; queries := ∅;
       location_search := [("token", "")]; effects := [] |}
    = [EToast "Success!" "Password updated." "success";
       EFormReset;
       ENavigate "/login"].
Proof. by vm_compute. Qed.

(** C9. Without a ["token"] parameter in the page address, a submitted
    reset issues no request and still settles as a success: the success
    toast, the form reset and the navigation to the login route are all
    that happens, and storage and cache stay as they were. *)
Theorem ResetPassword_without_token_settles_as_success
    (server : Headers -> ApiCall -> Response) (new_pw : string) (w : World) :
  search_get "token" (location_search w) = None ->
  trace (ResetPassword_onSubmit server new_pw) w
    = [EToast "Success!" "Password updated." "success";
       EFormReset;
       ENavigate "/login"] /\
  requests (trace (ResetPassword_onSubmit server new_pw) w) = [] /\
  outcome_of (ResetPassword_onSubmit server new_pw) w = Done tt /\
  localStorage (world_after (ResetPassword_onSubmit server new_pw) w)
    = localStorage w /\
  queries (world_after (ResetPassword_onSubmit server new_pw) w) = queries w.
Proof.
  intros H.
  repeat split; run_handler; rewrite H; cbv beta iota; read_log; reflexivity.
Qed.

Lemma ResetPassword_without_token_witness :
  trace (ResetPassword_onSubmit rejecting_server "new-secret") fresh_world
    = [EToast "Success!" "Password updated." "success";
       EFormReset;
       ENavigate "/login"] /\
  requests (trace (ResetPassword_onSubmit rejecting_server "new-secret")
              fresh_world) = [].
Proof.
  destruct (ResetPassword_without_token_settles_as_success
              rejecting_server "new-secret" fresh_world) as (H1 & H2 & _).
  - reflexivity.
  - split; [exact H1 | exact H2].
Defined.

(** ** The route guard *)

(** C3. When [isLoggedIn()] answers false at the time of a navigation to
    the authenticated layout route, [beforeLoad] throws the redirect: the
    navigation ends redirected to ["/login"], the only effect is that
    navigation, and the component of the guarded route is not rendered. *)
Theorem Layout_guard_redirects_before_render
    (loggedIn : World -> bool) (w : World) :
  loggedIn w = false ->
  outcome_of (beforeLoad (Layout_Route loggedIn)) w
    = Raised (ThrowRedirect "/login") /\
  outcome_of (enter (Layout_Route loggedIn)) w = Done (Redirected "/login") /\
  trace (enter (Layout_Route loggedIn)) w = [ENavigate "/login"] /\
  rendered (trace (enter (Layout_Route loggedIn)) w) = [].
Proof.
  intros H.
  repeat split; run_handler; rewrite H; cbv beta iota; read_log; reflexivity.
Qed.

Lemma Layout_guard_redirects_witness :
  outcome_of (enter (Layout_Route isLoggedIn)) fresh_world
    = Done (Redirected "/login") /\
  rendered (trace (enter (Layout_Route isLoggedIn)) fresh_world) = [].
Proof.
  destruct (Layout_guard_redirects_before_render isLoggedIn fresh_world)
    as (_ & H1 & _ & H2).
  - reflexivity.
  - split; [exact H1 | exact H2].
Defined.

(** The other side of the guard: a signed-in navigation renders the
    layout. *)
Lemma Layout_guard_lets_signed_in_through
    (loggedIn : World -> bool) (w : World) :
  loggedIn w = true ->
  outcome_of (enter (Layout_Route loggedIn)) w = Done (Entered "Layout") /\
  trace (enter (Layout_Route loggedIn)) w = [ERender "Layout"].
Proof.
  intros H.
  repeat split; run_handler; rewrite H; cbv beta iota; read_log; reflexivity.
Qed.

(** ** The bearer token of outbound requests *)

Lemma request_run server (c : ApiCall) (w : World) :
  request server c w =
  let h := getHeaders (stored_token w) in
  let w1 := log_effect (ERequest h c) w in
  match server h c with
  | RespOk body => (Done body, w1)
  | RespErr e => (Raised (ThrowApi e), w1)
  | RespNone => (Raised (ThrowError "Network Error"), w1)
  end.
Proof. run_handler. cbv zeta. by destruct (server _ _). Qed.

Lemma stored_token_set (tok : string) (w : World) :
  stored_token (with_storage (insert "access_token" tok) w) = tok.
Proof. unfold stored_token. cbn. by rewrite lookup_insert_eq. Qed.

Lemma stored_token_cleared (w : World) :
  stored_token (with_storage (delete "access_token") w) = "".
Proof. unfold stored_token. cbn. by rewrite lookup_delete_eq. Qed.

(** On a concrete run: the request after the login carries the token,
    the request after the logout carries none. *)
Example token_follows_the_store :
  requests
    (effects
       (run accepting_server
          [ALogin "alice@example.com" "secret"; ASubmit (MDeleteItem 3);
           ALogout; ASubmit (MDeleteItem 4)]
          fresh_world))
    = [([], LoginAccessToken "alice@example.com" "secret");
       ([("Authorization", "Bearer tok-1")], DeleteItem 3);
       ([], DeleteItem 4)].
Proof. by vm_compute. Qed.

(** C4. The resolver answers from the token store as it is at the time of
    the call and keeps nothing of its own: it returns what is stored under
    ["access_token"] ([""] when nothing is), leaves the world as it
    found it, sees a token as soon as it is stored, and after a logout the
    next request, whichever it is, is sent without an [Authorization]
    header. *)
Theorem OpenAPI_TOKEN_reads_store_on_every_call
    (server : Headers -> ApiCall -> Response) (tok : string) (c : ApiCall)
    (w : World) :
  OpenAPI_TOKEN w = (Done (stored_token w), w) /\
  outcome_of OpenAPI_TOKEN (world_after (setItem "access_token" tok) w)
    = Done tok /\
  outcome_of OpenAPI_TOKEN (world_after logout w) = Done "" /\
  requests (trace (request server c) (world_after logout w)) = [([], c)] /\
  Forall (fun r => has_authorization r.1 = false)
    (requests (trace (request server c) (world_after logout w))).
Proof.
  assert (Hreq : requests (trace (request server c) (world_after logout w))
                 = [([], c)]).
  { unfold trace, world_after. rewrite request_run. cbv zeta.
    change ((logout w).2) with (with_storage (delete "access_token") w).
    rewrite stored_token_cleared. change (getHeaders "") with (@nil (string * string)).
    destruct (server _ _); read_log; reflexivity. }
  split; [reflexivity|]. split.
  { change (world_after (setItem "access_token" tok) w)
      with (with_storage (insert "access_token" tok) w).
    unfold outcome_of. change (OpenAPI_TOKEN ?x) with (Done (stored_token x), x).
    cbn. by rewrite stored_token_set. }
  split.
  { change (world_after logout w) with (with_storage (delete "access_token") w).
    unfold outcome_of. change (OpenAPI_TOKEN ?x) with (Done (stored_token x), x).
    cbn. by rewrite stored_token_cleared. }
  split; [exact Hreq|].
  rewrite Hreq. by repeat constructor.
Qed.

(** With a token in the store the request carries it as the bearer. *)
Lemma request_carries_stored_token server (c : ApiCall) (tok : string)
    (w : World) :
  tok <> "" ->
  localStorage w !! "access_token" = Some tok ->
  requests (trace (request server c) w)
    = [([("Authorization", "Bearer " +:+ tok)], c)].
Proof.
  intros Hne Hw. unfold trace, world_after. rewrite request_run. cbv zeta.
  unfold stored_token. rewrite Hw. unfold getHeaders.
  case_decide; [done|].
  destruct (server _ _); read_log; reflexivity.
Qed.

(** ** Sessions *)

Lemma isLoggedIn_same_storage (w w' : World) :
  same_storage w w' -> isLoggedIn w' = isLoggedIn w.
Proof. unfold same_storage, isLoggedIn. by intros ->. Qed.

Lemma run_app server (l1 l2 : list Action) (w : World) :
  run server (l1 ++ l2) w = run server l2 (run server l1 w).
Proof. revert w. induction l1 as [|a l1 IH]; intros w; [done|]. apply IH. Qed.

(** A run of actions that are neither a login nor a logout leaves the
    token store alone. *)
Lemma run_same_storage server (l : list Action) (w : World) :
  forallb keeps_session l = true -> same_storage w (run server l w).
Proof.
  revert w. induction l as [|a l IH]; intros w Hl; [reflexivity|].
  cbn in Hl. apply andb_prop in Hl as [Ha Hl]. cbn [run].
  etransitivity; [apply (step_same_storage server a Ha)|]. by apply IH.
Qed.

Lemma isLoggedIn_run server (l : list Action) (w : World) :
  forallb keeps_session l = true ->
  isLoggedIn (run server l w) = isLoggedIn w.
Proof. intros Hl. by apply isLoggedIn_same_storage, run_same_storage. Qed.

Lemma forallb_prefix {A} (f : A -> bool) (p l : list A) :
  p `prefix_of` l -> forallb f l = true -> forallb f p = true.
Proof.
  intros [k ->]. rewrite forallb_app. intros H.
  by apply andb_prop in H as [H _].
Qed.

Lemma isLoggedIn_set (tok : string) (w : World) :
  isLoggedIn (with_storage (insert "access_token" tok) w) = true.
Proof.
  unfold isLoggedIn. cbn. rewrite lookup_insert_eq.
  apply bool_decide_eq_true. by eexists.
Qed.

Lemma isLoggedIn_cleared (w : World) :
  isLoggedIn (with_storage (delete "access_token") w) = false.
Proof.
  unfold isLoggedIn. cbn. rewrite lookup_delete_eq.
  apply bool_decide_eq_false. by intros [? ?].
Qed.

(** ** Deleting the own account *)

(** C5. When the server accepts the deletion of the own account, the
    token is removed from the store, [isLoggedIn()] answers false in the
    world the mutation leaves and after any further actions other than a
    login, and ["currentUser"] is the one key invalidated: the cache
    changes by the stale mark on that key and by nothing else. *)
Theorem DeleteConfirmation_success_clears_session
    (server : Headers -> ApiCall -> Response) (id : Z) (body : string)
    (w : World) :
  server (getHeaders (stored_token w)) (DeleteUser id) = RespOk body ->
  let w' := world_after (mutate (DeleteConfirmation_mutation server) id) w in
  localStorage w' !! "access_token" = None /\
  isLoggedIn w' = false /\
  (forall l, forallb keeps_session l = true ->
             isLoggedIn (run server l w') = false) /\
  invalidated_keys (trace (mutate (DeleteConfirmation_mutation server) id) w)
    = ["currentUser"] /\
  queries w' = alter mark_stale "currentUser" (queries w).
Proof.
  intros Hok w'.
  assert (Hw' : w' =
    log_effect (ECache (Invalidate "currentUser"))
      (with_queries (alter mark_stale "currentUser")
         (log_effect EClose
            (with_storage (delete "access_token")
               (log_effect
                  (EToast "Success"
                     "Your account has been successfully deleted." "success")
                  (log_effect
                     (ERequest (getHeaders (stored_token w)) (DeleteUser id))
                     w)))))).
  { subst w'. run_handler. by rewrite Hok. }
  assert (Hgone : localStorage w' !! "access_token" = None).
  { rewrite Hw'. cbn. apply lookup_delete_eq. }
  assert (Hout : isLoggedIn w' = false).
  { unfold isLoggedIn. rewrite Hgone.
    apply bool_decide_eq_false. by intros [? ?]. }
  split; [exact Hgone|split; [exact Hout|split; [|split]]].
  - intros l Hl. by rewrite isLoggedIn_run.
  - unfold trace. fold w'. rewrite Hw'. read_log. reflexivity.
  - rewrite Hw'. reflexivity.
Qed.

Lemma DeleteConfirmation_success_witness :
  isLoggedIn (session_of alice) = true /\
  isLoggedIn
    (world_after (mutate (DeleteConfirmation_mutation accepting_server) 7)
       (session_of alice)) = false /\
  invalidated_keys
    (trace (mutate (DeleteConfirmation_mutation accepting_server) 7)
       (session_of alice)) = ["currentUser"].
Proof.
  split; [by vm_compute|].
  destruct (DeleteConfirmation_success_clears_session accepting_server 7 ""
              (session_of alice)) as (_ & H1 & _ & H2 & _).
  - reflexivity.
  - split; [exact H1 | exact H2].
Defined.

(** ** No write-through into the cache *)

Lemma cache_ops_only_invalidate (l : list Effect) :
  Forall not_cache_write l ->
  Forall (fun op => exists k, op = Invalidate k) (cache_ops l).
Proof.
  induction 1 as [|e l He _ IH]; [constructor|].
  destruct e as [| |[k|k d]| | | |]; cbn; try exact IH.
  - constructor; [by exists k | exact IH].
  - destruct He.
Qed.

(** C7. Whatever mutation is submitted (create, update or delete of a
    User or an Item, update-me, password change, deletion of the own
    account) and whatever the server answers, every operation on the
    cache that the run logs is an invalidation, and the data held under
    every key is what it was before: nothing of the request is written
    into the cache. *)
Theorem mutations_only_invalidate
    (server : Headers -> ApiCall -> Response) (m : Mutation) (w : World) :
  Forall (fun op => exists k, op = Invalidate k)
    (cache_ops (trace (submit server m) w)) /\
  (forall k, cached_data (world_after (submit server m) w) k
             = cached_data w k).
Proof.
  split.
  - destruct (submit_no_cache_write server m w) as (l & Hl & Hno).
    unfold trace. rewrite Hl, drop_app_length.
    by apply cache_ops_only_invalidate.
  - apply (submit_same_data server m w).
Qed.

(** ** Login, then logout *)

Lemma login_success server (email password tok : string) (w : World) :
  server (getHeaders (stored_token w)) (LoginAccessToken email password)
    = RespOk tok ->
  world_after (login server email password) w
    = with_storage (insert "access_token" tok)
        (log_effect
           (ERequest (getHeaders (stored_token w))
              (LoginAccessToken email password)) w).
Proof. intros Hok. run_handler. by rewrite Hok. Qed.

(** C8. Start with no token in the store.  Whatever is done before a
    successful login, between it and the logout, and after the logout, as
    long as it is no other login or logout, [isLoggedIn()] answers false
    at every point before the login, true at every point from the login
    up to the logout, and false at every point after the logout. *)
Theorem isLoggedIn_between_login_and_logout
    (server : Headers -> ApiCall -> Response) (email password tok : string)
    (before between after : list Action) (w0 : World) :
  localStorage w0 !! "access_token" = None ->
  server [] (LoginAccessToken email password) = RespOk tok ->
  forallb keeps_session before = true ->
  forallb keeps_session between = true ->
  forallb keeps_session after = true ->
  let w1 := run server before w0 in
  let w2 := world_after (login server email password) w1 in
  let w3 := run server between w2 in
  let w4 := world_after logout w3 in
  (forall p, p `prefix_of` before -> isLoggedIn (run server p w0) = false) /\
  (forall p, p `prefix_of` between -> isLoggedIn (run server p w2) = true) /\
  (forall p, p `prefix_of` after -> isLoggedIn (run server p w4) = false).
Proof.
  intros Hnone Hok Hb Hm Ha w1 w2 w3 w4.
  assert (H0 : isLoggedIn w0 = false).
  { unfold isLoggedIn. rewrite Hnone.
    apply bool_decide_eq_false. by intros [? ?]. }
  assert (Hs1 : localStorage w1 = localStorage w0)
    by apply (run_same_storage server before w0 Hb).
  assert (Ht1 : stored_token w1 = "").
  { unfold stored_token. by rewrite Hs1, Hnone. }
  assert (H2 : isLoggedIn w2 = true).
  { subst w2. rewrite (login_success server email password tok w1).
    - apply isLoggedIn_set.
    - rewrite Ht1. exact Hok. }
  assert (H4 : isLoggedIn w4 = false) by apply isLoggedIn_cleared.
  repeat split; intros p Hp; rewrite isLoggedIn_run;
    eauto using forallb_prefix.
Qed.

Lemma isLoggedIn_between_login_and_logout_witness :
  let w2 := world_after (login accepting_server "alice@example.com" "secret")
              fresh_world in
  let w4 := world_after logout
              (run accepting_server
                 [AEnterLayout; ASubmit (MCreateItem "Foo"); AResolveToken] w2)
  in
  isLoggedIn fresh_world = false /\
  isLoggedIn (run accepting_server [AEnterLayout; ASubmit (MCreateItem "Foo")] w2)
    = true /\
  isLoggedIn (run accepting_server [AEnterLayout] w4) = false.
Proof.
  destruct (isLoggedIn_between_login_and_logout accepting_server
              "alice@example.com" "secret" "tok-1"
              [AEnterResetPassword]
              [AEnterLayout; ASubmit (MCreateItem "Foo"); AResolveToken]
              [AEnterLayout; AOpenSettings] fresh_world)
    as (H1 & H2 & H3); try reflexivity.
  split; [|split].
  - apply (H1 []). by apply prefix_nil.
  - apply (H2 [AEnterLayout; ASubmit (MCreateItem "Foo")]).
    by exists [AResolveToken].
  - apply (H3 [AEnterLayout]). by exists [AOpenSettings].
Defined.

(** ** The tabs of the settings page *)

(** C10. With a superuser as the cached current user, the settings page
    renders the first three tabs (My profile, Password, Appearance) and no
    "Danger zone"; with a cached current user who is no superuser, or with
    no current user in the cache, it renders all four, "Danger zone"
    last. *)
Theorem UserSettings_tabs_by_role :
  (forall w u,
     cached_data w "currentUser" = Some (CUser u) ->
     is_superuser u = true ->
     exists tabs,
       outcome_of UserSettings w = Done tabs /\
       tab_title <$> tabs = ["My profile"; "Password"; "Appearance"] /\
       DeleteAccount ∉ (tab_component <$> tabs)) /\
  (forall w u,
     cached_data w "currentUser" = Some (CUser u) ->
     is_superuser u = false ->
     exists tabs,
       outcome_of UserSettings w = Done tabs /\
       tab_title <$> tabs
         = ["My profile"; "Password"; "Appearance"; "Danger zone"] /\
       tab_component <$> tabs
         = [UserInformation; ChangePassword; Appearance; DeleteAccount]) /\
  (forall w,
     cached_data w "currentUser" = None ->
     exists tabs,
       outcome_of UserSettings w = Done tabs /\
       tab_title <$> tabs
         = ["My profile"; "Password"; "Appearance"; "Danger zone"] /\
       tab_component <$> tabs
         = [UserInformation; ChangePassword; Appearance; DeleteAccount]).
Proof.
  split; [|split].
  - intros w u Hc Hs. exists (take 3 tabsConfig).
    split; [run_handler; by rewrite Hc; cbn; rewrite Hs|].
    split; [reflexivity|].
    cbn. intros H. repeat (apply elem_of_cons in H as [H|H]; [discriminate|]).
    by apply elem_of_nil in H.
  - intros w u Hc Hs. exists tabsConfig.
    split; [run_handler; by rewrite Hc; cbn; rewrite Hs|]. by split.
  - intros w Hc. exists tabsConfig.
    split; [run_handler; by rewrite Hc|]. by split.
Qed.

Lemma UserSettings_tabs_by_role_witness :
  (exists tabs,
     outcome_of UserSettings (session_of root_user) = Done tabs /\
     tab_title <$> tabs = ["My profile"; "Password"; "Appearance"]) /\
  (exists tabs,
     outcome_of UserSettings (session_of alice) = Done tabs /\
     tab_title <$> tabs
       = ["My profile"; "Password"; "Appearance"; "Danger zone"]) /\
  (exists tabs,
     outcome_of UserSettings fresh_world = Done tabs /\
     tab_title <$> tabs
       = ["My profile"; "Password"; "Appearance"; "Danger zone"]).
Proof.
  destruct UserSettings_tabs_by_role as (Hsuper & Huser & Hnone).
  split; [|split].
  - destruct (Hsuper (session_of root_user) root_user) as (tabs & H1 & H2 & _);
      [by vm_compute | reflexivity |]. by exists tabs.
  - destruct (Huser (session_of alice) alice) as (tabs & H1 & H2 & _);
      [by vm_compute | reflexivity |]. by exists tabs.
  - destruct (Hnone fresh_world) as (tabs & H1 & H2 & _);
      [by vm_compute |]. by exists tabs.
Defined.

(** * Further properties of the components *)

(** ** Reading a trace *)

(** Membership in an explicit list of effects. *)
Ltac in_log :=
  rewrite ?elem_of_cons, ?elem_of_nil; cbn; intuition (try discriminate; eauto).

Lemma alter_mark_stale_twice (k : string) (q : gmap string QueryState) :
  alter mark_stale k (alter mark_stale k q) = alter mark_stale k q.
Proof.
  apply map_eq. intros i. destruct (decide (k = i)) as [->|Hne].
  - rewrite !lookup_alter_eq. by destruct (q !! i) as [[d b]|].
  - by rewrite !lookup_alter_ne.
Qed.

Lemma Delete_queries_User server (id : Z) (w : World) :
  queries (world_after (Delete_onSubmit server "User" id) w)
    = alter mark_stale "users" (queries w).
Proof. run_handler; answer; read_log; reflexivity. Qed.

Lemma Delete_queries_Item server (id : Z) (w : World) :
  queries (world_after (Delete_onSubmit server "Item" id) w)
    = alter mark_stale "items" (queries w).
Proof. run_handler; answer; read_log; reflexivity. Qed.

(** ** The delete dialog, continued *)

Lemma Delete_trace_User server (id : Z) (w : World) :
  let h := getHeaders (stored_token w) in
  trace (Delete_onSubmit server "User" id) w
    = ERequest h (DeleteUser id)
      :: match server h (DeleteUser id) with
         | RespOk _ =>
             [EToast "Success" "The user was deleted successfully." "success";
              EClose]
         | _ =>
             [EToast "An error occurred."
                "An error occurred while deleting the user." "error"]
         end
      ++ [ECache (Invalidate "users")].
Proof. cbv zeta. run_handler. answer; read_log; reflexivity. Qed.

Lemma Delete_trace_Item server (id : Z) (w : World) :
  let h := getHeaders (stored_token w) in
  trace (Delete_onSubmit server "Item" id) w
    = ERequest h (DeleteItem id)
      :: match server h (DeleteItem id) with
         | RespOk _ =>
             [EToast "Success" "The item was deleted successfully." "success";
              EClose]
         | _ =>
             [EToast "An error occurred."
                "An error occurred while deleting the item." "error"]
         end
      ++ [ECache (Invalidate "items")].
Proof. cbv zeta. run_handler. answer; read_log; reflexivity. Qed.



(** X2. A delete dialog of a user or of an item sends exactly one
    request, the deletion of the id it was opened for, and it closes if
    and only if the server accepts that request; the invalidation is the
    last thing it does. *)
Theorem Delete_one_request_and_closes_iff_accepted
    (server : Headers -> ApiCall -> Response) (id : Z) (w : World) :
  let h := getHeaders (stored_token w) in
  (requests (trace (Delete_onSubmit server "User" id) w)
     = [(h, DeleteUser id)] /\
   (EClose ∈ trace (Delete_onSubmit server "User" id) w
      <-> accepted (server h (DeleteUser id))) /\
   last (trace (Delete_onSubmit server "User" id) w)
     = Some (ECache (Invalidate "users"))) /\
  (requests (trace (Delete_onSubmit server "Item" id) w)
     = [(h, DeleteItem id)] /\
   (EClose ∈ trace (Delete_onSubmit server "Item" id) w
      <-> accepted (server h (DeleteItem id))) /\
   last (trace (Delete_onSubmit server "Item" id) w)
     = Some (ECache (Invalidate "items"))).
Proof.
  cbv zeta. rewrite Delete_trace_User, Delete_trace_Item. cbv zeta.
  split; (split; [|split]);
    match goal with
    | |- context [server ?h ?c] => destruct (server h c)
    end; cbn; try reflexivity; in_log.
Qed.

(** X3. Deleting twice marks the collection stale once: the cache after
    a second delete dialog of the same kind, for whatever id and whatever
    the server answers, is the cache after the first. *)
Theorem Delete_twice_invalidates_once
    (server1 server2 : Headers -> ApiCall -> Response) (id1 id2 : Z)
    (w : World) :
  queries (world_after (Delete_onSubmit server2 "User" id2)
             (world_after (Delete_onSubmit server1 "User" id1) w))
    = queries (world_after (Delete_onSubmit server1 "User" id1) w) /\
  queries (world_after (Delete_onSubmit server2 "Item" id2)
             (world_after (Delete_onSubmit server1 "Item" id1) w))
    = queries (world_after (Delete_onSubmit server1 "Item" id1) w).
Proof.
  rewrite !Delete_queries_User, !Delete_queries_Item.
  split; apply alter_mark_stale_twice.
Qed.

(** X4. A delete dialog touches no query but the one of its collection:
    every other query keeps its data and its stale mark, the collection
    keeps its data and is marked stale, and when the collection was never
    fetched the cache is left exactly as it was (no entry is created). *)
Theorem Delete_touches_only_its_collection
    (server : Headers -> ApiCall -> Response) (id : Z) (w : World) :
  let wu := world_after (Delete_onSubmit server "User" id) w in
  let wi := world_after (Delete_onSubmit server "Item" id) w in
  (forall k, k <> "users" -> queries wu !! k = queries w !! k) /\
  (forall k, k <> "items" -> queries wi !! k = queries w !! k) /\
  queries wu !! "users" = mark_stale <$> queries w !! "users" /\
  queries wi !! "items" = mark_stale <$> queries w !! "items" /\
  (queries w !! "users" = None -> queries wu = queries w) /\
  (queries w !! "items" = None -> queries wi = queries w).
Proof.
  cbv zeta. rewrite Delete_queries_User, Delete_queries_Item.
  repeat split.
  - intros k Hk. by rewrite lookup_alter_ne.
  - intros k Hk. by rewrite lookup_alter_ne.
  - apply lookup_alter_eq.
  - apply lookup_alter_eq.
  - intros Hn. apply map_eq. intros k. rewrite lookup_alter.
    case_decide; [subst; by rewrite Hn|done].
  - intros Hn. apply map_eq. intros k. rewrite lookup_alter.
    case_decide; [subst; by rewrite Hn|done].
Qed.

Lemma Delete_touches_only_its_collection_witness :
  queries (world_after (Delete_onSubmit accepting_server "User" 7) fresh_world)
    = queries fresh_world /\
  queries (world_after (Delete_onSubmit accepting_server "User" 7)
             (session_of root_user)) !! "items"
    = queries (session_of root_user) !! "items".
Proof.
  destruct (Delete_touches_only_its_collection accepting_server 7 fresh_world)
    as (_ & _ & _ & _ & H & _).
  destruct (Delete_touches_only_its_collection accepting_server 7
              (session_of root_user)) as (H' & _).
  split; [apply H; reflexivity | apply H'; discriminate].
Defined.

(** ** Adding a user *)

Lemma AddUser_trace server (data : UserCreate) (w : World) :
  let h := getHeaders (stored_token w) in
  let c := CreateUser (uc_email data) (uc_password data) (uc_full_name data)
             (uc_is_superuser data) (uc_is_active data) in
  trace (AddUser_onSubmit server data) w
    = ERequest h c
      :: match server h c with
         | RespOk _ =>
             [EToast "Success!" "User created successfully." "success";
              EFormReset; EClose]
         | RespErr e =>
             [EToast "Something went wrong." (template (detail e)) "error"]
         | RespNone =>
             [EToast "Something went wrong." "undefined" "error"]
         end
      ++ [ECache (Invalidate "users")].
Proof. cbv zeta. run_handler. answer; read_log; reflexivity. Qed.

(** X5. The add-user form sends exactly one request, carrying the five
    fields of the form; whatever the server answers, ["users"] is the one
    key it invalidates, and it does so last; the form is emptied and the
    modal closed if and only if the server accepts, so a rejected form
    keeps what was typed. *)
Theorem AddUser_resets_and_closes_iff_accepted
    (server : Headers -> ApiCall -> Response) (data : UserCreate) (w : World) :
  let h := getHeaders (stored_token w) in
  let c := CreateUser (uc_email data) (uc_password data) (uc_full_name data)
             (uc_is_superuser data) (uc_is_active data) in
  requests (trace (AddUser_onSubmit server data) w) = [(h, c)] /\
  invalidated_keys (trace (AddUser_onSubmit server data) w) = ["users"] /\
  last (trace (AddUser_onSubmit server data) w)
    = Some (ECache (Invalidate "users")) /\
  (EFormReset ∈ trace (AddUser_onSubmit server data) w
     <-> accepted (server h c)) /\
  (EClose ∈ trace (AddUser_onSubmit server data) w
     <-> accepted (server h c)).
Proof.
  cbv zeta. rewrite AddUser_trace. cbv zeta.
  repeat split;
    match goal with
    | |- context [server ?h ?c] => destruct (server h c)
    end; cbn; try reflexivity; in_log.
Qed.

(** ** Changing the password, continued *)

Lemma ChangePassword_trace server (data : UpdatePassword) (w : World) :
  let h := getHeaders (stored_token w) in
  let c := UpdatePasswordMe (current_password data) (new_password data) in
  trace (ChangePassword_onSubmit server data) w
    = ERequest h c
      :: match server h c with
         | RespOk _ =>
             [EToast "Success!" "Password updated." "success"; EFormReset]
         | RespErr e =>
             [EToast "Something went wrong." (template (detail e)) "error"]
         | RespNone =>
             [EToast "Something went wrong." "undefined" "error"]
         end.
Proof. cbv zeta. run_handler. answer; read_log; reflexivity. Qed.

(** X6. The change-password form sends exactly one request, carrying the
    current and the new password; the form is emptied if and only if the
    server accepts; it never navigates and never closes anything, and the
    token store is left as it was, so the user stays signed in. *)
Theorem ChangePassword_resets_iff_accepted
    (server : Headers -> ApiCall -> Response) (data : UpdatePassword)
    (w : World) :
  let h := getHeaders (stored_token w) in
  let c := UpdatePasswordMe (current_password data) (new_password data) in
  requests (trace (ChangePassword_onSubmit server data) w) = [(h, c)] /\
  (EFormReset ∈ trace (ChangePassword_onSubmit server data) w
     <-> accepted (server h c)) /\
  (EClose ∉ trace (ChangePassword_onSubmit server data) w) /\
  (forall to, ENavigate to ∉ trace (ChangePassword_onSubmit server data) w) /\
  localStorage (world_after (ChangePassword_onSubmit server data) w)
    = localStorage w.
Proof.
  cbv zeta. rewrite ChangePassword_trace. cbv zeta.
  split; [|split; [|split; [|split]]].
  - destruct (server _ _); reflexivity.
  - destruct (server _ _); cbn; in_log.
  - destruct (server _ _); cbn; in_log.
  - intros to. destruct (server _ _); cbn; in_log.
  - run_handler; answer; reflexivity.
Qed.

(** ** What a failure shows *)

Lemma UserInformation_trace server (data : UserUpdateMe) (w : World) :
  let h := getHeaders (stored_token w) in
  let c := UpdateUserMe (me_full_name data) (me_email data) in
  trace (UserInformation_onSubmit server data) w
    = ERequest h c
      :: match server h c with
         | RespOk _ =>
             [EToast "Success!" "User updated successfully." "success"]
         | RespErr e =>
             [EToast "Something went wrong." (template (detail e)) "error"]
         | RespNone =>
             [EToast "Something went wrong." "undefined" "error"]
         end
      ++ [ECache (Invalidate "users"); ECache (Invalidate "currentUser")].
Proof. cbv zeta. run_handler. answer; read_log; reflexivity. Qed.

Lemma DeleteConfirmation_trace server (id : Z) (w : World) :
  let h := getHeaders (stored_token w) in
  trace (mutate (DeleteConfirmation_mutation server) id) w
    = ERequest h (DeleteUser id)
      :: match server h (DeleteUser id) with
         | RespOk _ =>
             [EToast "Success" "Your account has been successfully deleted."
                "success";
              EClose]
         | RespErr e =>
             [EToast "Something went wrong." (template (detail e)) "error"]
         | RespNone =>
             [EToast "Something went wrong." "undefined" "error"]
         end
      ++ [ECache (Invalidate "currentUser")].
Proof. cbv zeta. run_handler. answer; read_log; reflexivity. Qed.

Lemma ResetPassword_trace server (new_pw t : string) (w : World) :
  search_get "token" (location_search w) = Some t ->
  t <> "" ->
  let h := getHeaders (stored_token w) in
  let c := ResetPasswordCall new_pw t in
  trace (ResetPassword_onSubmit server new_pw) w
    = ERequest h c
      :: match server h c with
         | RespOk _ =>
             [EToast "Success!" "Password updated." "success";
              EFormReset; ENavigate "/login"]
         | RespErr e =>
             [EToast "Something went wrong." (template (detail e)) "error"]
         | RespNone =>
             [EToast "Something went wrong." "undefined" "error"]
         end.
Proof.
  intros Ht Hne. cbv zeta. run_handler. rewrite Ht. cbv beta iota.
  destruct (decide (t = "")) as [|_]; [done|].
  run_handler. answer; read_log; reflexivity.
Qed.

(** X7. When the server answers with an error whose [detail] is a string,
    the error toast of the profile form, the password form, the add-user
    form and the delete-account dialog shows that string verbatim under
    the title "Something went wrong.". *)
Theorem error_toast_shows_the_detail
    (server : Headers -> ApiCall -> Response) (e : ApiError) (s : string)
    (me : UserUpdateMe) (pw : UpdatePassword) (uc : UserCreate) (id : Z)
    (w : World) :
  (forall h c, server h c = RespErr e) ->
  detail e = Some (DString s) ->
  let toast := EToast "Something went wrong." s "error" in
  toast ∈ trace (UserInformation_onSubmit server me) w /\
  toast ∈ trace (ChangePassword_onSubmit server pw) w /\
  toast ∈ trace (AddUser_onSubmit server uc) w /\
  toast ∈ trace (mutate (DeleteConfirmation_mutation server) id) w.
Proof.
  intros Hs Hd. cbv zeta.
  rewrite UserInformation_trace, ChangePassword_trace, AddUser_trace,
    DeleteConfirmation_trace. cbv zeta.
  rewrite !Hs, Hd. cbn. repeat split; in_log.
Qed.

Lemma error_toast_shows_the_detail_witness :
  EToast "Something went wrong." "Incorrect password" "error"
    ∈ trace (ChangePassword_onSubmit rejecting_server sample_passwords)
        (session_of alice).
Proof.
  destruct (error_toast_shows_the_detail rejecting_server
              {| status := 400; detail := Some (DString "Incorrect password") |}
              "Incorrect password"
              {| me_full_name := None; me_email := None |}
              sample_passwords
              {| uc_email := ""; uc_password := ""; uc_full_name := "";
                 uc_is_superuser := false; uc_is_active := false |}
              7 (session_of alice)) as (_ & H & _).
  - reflexivity.
  - reflexivity.
  - exact H.
Defined.

(** X8. When no response arrives, or the error body has no [detail], the
    same toasts read "undefined": the template literal prints the missing
    detail. *)
Theorem error_toast_without_detail_reads_undefined
    (server : Headers -> ApiCall -> Response)
    (me : UserUpdateMe) (pw : UpdatePassword) (uc : UserCreate) (id : Z)
    (w : World) :
  (forall h c, server h c = RespNone \/
               exists e, server h c = RespErr e /\ detail e = None) ->
  let toast := EToast "Something went wrong." "undefined" "error" in
  toast ∈ trace (UserInformation_onSubmit server me) w /\
  toast ∈ trace (ChangePassword_onSubmit server pw) w /\
  toast ∈ trace (AddUser_onSubmit server uc) w /\
  toast ∈ trace (mutate (DeleteConfirmation_mutation server) id) w.
Proof.
  intros Hs. cbv zeta.
  rewrite UserInformation_trace, ChangePassword_trace, AddUser_trace,
    DeleteConfirmation_trace. cbv zeta.
  repeat split;
    match goal with
    | |- context [server ?h ?c] =>
        destruct (Hs h c) as [->|(e & -> & ->)]
    end; cbn; in_log.
Qed.

Lemma error_toast_without_detail_witness :
  EToast "Something went wrong." "undefined" "error"
    ∈ trace (UserInformation_onSubmit silent_server
               {| me_full_name := Some "Alice"; me_email := None |})
        (session_of alice).
Proof.
  destruct (error_toast_without_detail_reads_undefined silent_server
              {| me_full_name := Some "Alice"; me_email := None |}
              sample_passwords
              {| uc_email := ""; uc_password := ""; uc_full_name := "";
                 uc_is_superuser := false; uc_is_active := false |}
              7 (session_of alice)) as (H & _).
  - intros h c. by left.
  - exact H.
Defined.

(** ** Deleting the own account, continued *)

(** X9. When the deletion of the own account is not accepted, the dialog
    does not log out and does not close: the token store is left as it
    was, the error toast is all the user sees, and ["currentUser"] is
    invalidated all the same. *)
Theorem DeleteConfirmation_failure_keeps_session
    (server : Headers -> ApiCall -> Response) (id : Z) (w : World) :
  ~ accepted (server (getHeaders (stored_token w)) (DeleteUser id)) ->
  localStorage (world_after (mutate (DeleteConfirmation_mutation server) id) w)
    = localStorage w /\
  (EClose ∉ trace (mutate (DeleteConfirmation_mutation server) id) w) /\
  invalidated_keys (trace (mutate (DeleteConfirmation_mutation server) id) w)
    = ["currentUser"].
Proof.
  intros Hno. rewrite DeleteConfirmation_trace. cbv zeta.
  split; [|split].
  - run_handler. answer; [by destruct Hno| |]; reflexivity.
  - destruct (server _ _); [by destruct Hno| |]; cbn; in_log.
  - destruct (server _ _); reflexivity.
Qed.

Lemma DeleteConfirmation_failure_witness :
  localStorage
    (world_after (mutate (DeleteConfirmation_mutation rejecting_server) 7)
       (session_of alice))
    = localStorage (session_of alice).
Proof.
  destruct (DeleteConfirmation_failure_keeps_session rejecting_server 7
              (session_of alice)) as (H & _).
  - intros [].
  - exact H.
Defined.

(** X10. Confirming the dialog sends the deletion of the user that is
    cached as the current user: one request, for that user's id. *)
Theorem DeleteConfirmation_targets_the_cached_user
    (server : Headers -> ApiCall -> Response) (u : UserPublic) (w : World) :
  cached_data w "currentUser" = Some (CUser u) ->
  requests (trace (DeleteConfirmation_onSubmit server) w)
    = [(getHeaders (stored_token w), DeleteUser (user_id u))].
Proof.
  intros Hc.
  assert (Hrun : DeleteConfirmation_onSubmit server w
                 = mutate (DeleteConfirmation_mutation server) (user_id u) w).
  { unfold DeleteConfirmation_onSubmit, bind, getQueryData, read.
    by rewrite Hc. }
  unfold trace, world_after. rewrite Hrun.
  fold (world_after (mutate (DeleteConfirmation_mutation server) (user_id u)) w).
  fold (trace (mutate (DeleteConfirmation_mutation server) (user_id u)) w).
  rewrite DeleteConfirmation_trace. cbv zeta.
  destruct (server _ _); reflexivity.
Qed.

Lemma DeleteConfirmation_targets_witness :
  requests (trace (DeleteConfirmation_onSubmit accepting_server)
              (session_of alice))
    = [(getHeaders (stored_token (session_of alice)), DeleteUser 7)].
Proof.
  apply (DeleteConfirmation_targets_the_cached_user accepting_server alice).
  by vm_compute.
Defined.

(** X11. With no current user in the cache, confirming the dialog fails
    before anything is sent: no request, no toast, no invalidation, and
    the world is left as it was. *)
Theorem DeleteConfirmation_without_cached_user_does_nothing
    (server : Headers -> ApiCall -> Response) (w : World) :
  cached_data w "currentUser" = None ->
  world_after (DeleteConfirmation_onSubmit server) w = w /\
  trace (DeleteConfirmation_onSubmit server) w = [] /\
  exists e, outcome_of (DeleteConfirmation_onSubmit server) w = Raised e.
Proof.
  intros Hc.
  assert (Hrun : DeleteConfirmation_onSubmit server w
                 = (Raised (ThrowError "TypeError"), w)).
  { unfold DeleteConfirmation_onSubmit, bind, getQueryData, read.
    by rewrite Hc. }
  unfold trace, world_after, outcome_of. rewrite Hrun. cbn.
  split; [done|]. split; [by rewrite drop_all|]. by eexists.
Qed.

Lemma DeleteConfirmation_without_cached_user_witness :
  trace (DeleteConfirmation_onSubmit accepting_server) fresh_world = [].
Proof.
  destruct (DeleteConfirmation_without_cached_user_does_nothing
              accepting_server fresh_world) as (_ & H & _).
  - reflexivity.
  - exact H.
Defined.

(** ** Resetting the password, continued *)

(** X12. With a non-empty ["token"] parameter in the page address, a
    submitted reset sends exactly one request, carrying the new password
    and the first value of that parameter; the form is emptied and the
    user is sent to the login route if and only if the server accepts,
    and no cache entry is invalidated. *)
Theorem ResetPassword_with_token_sends_it
    (server : Headers -> ApiCall -> Response) (new_pw t : string)
    (w : World) :
  search_get "token" (location_search w) = Some t ->
  t <> "" ->
  let h := getHeaders (stored_token w) in
  let c := ResetPasswordCall new_pw t in
  requests (trace (ResetPassword_onSubmit server new_pw) w) = [(h, c)] /\
  (ENavigate "/login" ∈ trace (ResetPassword_onSubmit server new_pw) w
     <-> accepted (server h c)) /\
  (EFormReset ∈ trace (ResetPassword_onSubmit server new_pw) w
     <-> accepted (server h c)) /\
  invalidated_keys (trace (ResetPassword_onSubmit server new_pw) w) = [].
Proof.
  intros Ht Hne. cbv zeta.
  rewrite (ResetPassword_trace server new_pw t w Ht Hne). cbv zeta.
  split; [|split; [|split]]; destruct (server _ _); cbn;
    try reflexivity; in_log.
Qed.

Lemma ResetPassword_with_token_witness :
  requests
    (trace (ResetPassword_onSubmit rejecting_server "new-secret")
       {| localStorage := ∅; queries := ∅;
          location_search := [("lang", "en"); ("token", "abc"); ("token", "xyz")];
          effects := [] |})
    = [([], ResetPasswordCall "new-secret" "abc")].
Proof.
  destruct (ResetPassword_with_token_sends_it rejecting_server "new-secret"
              "abc"
              {| localStorage := ∅; queries := ∅;
                 location_search :=
                   [("lang", "en"); ("token", "abc"); ("token", "xyz")];
                 effects := [] |}) as (H & _).
  - reflexivity.
  - discriminate.
  - exact H.
Defined.

(** X13. An empty ["token"] parameter counts as none: the reset sends no
    request and runs its success path all the same. *)
Theorem ResetPassword_empty_token_is_no_token
    (server : Headers -> ApiCall -> Response) (new_pw : string) (w : World) :
  search_get "token" (location_search w) = Some "" ->
  requests (trace (ResetPassword_onSubmit server new_pw) w) = [] /\
  trace (ResetPassword_onSubmit server new_pw) w
    = [EToast "Success!" "Password updated." "success";
       EFormReset;
       ENavigate "/login"].
Proof.
  intros H.
  split; run_handler; rewrite H; cbv beta iota;
    (destruct (decide ("" = "")) as [_|]; [|done]);
    run_handler; read_log; reflexivity.
Qed.

Lemma ResetPassword_empty_token_witness :
  requests
    (trace (ResetPassword_onSubmit accepting_server "new-secret")
       {| localStorage := ∅; queries := ∅;
          location_search := [("token", "")]; effects := [] |}) = [].
Proof.
  destruct (ResetPassword_empty_token_is_no_token accepting_server "new-secret"
              {| localStorage := ∅; queries := ∅;
                 location_search := [("token", "")]; effects := [] |})
    as (H & _).
  - reflexivity.
  - exact H.
Defined.

(** ** The two guards *)

(** X14. The guard of the reset page is the mirror of the guard of the
    layout: in every world exactly one of the two routes renders its
    component.  Signed in, the layout renders and the reset page is
    redirected to ["/"]; signed out, the reset page renders and the
    layout is redirected to ["/login"].  Neither guard changes the token
    store or the cache. *)
Theorem guards_are_complementary (loggedIn : World -> bool) (w : World) :
  (loggedIn w = true /\
   trace (enter (Layout_Route loggedIn)) w = [ERender "Layout"] /\
   trace (enter (ResetPassword_Route loggedIn)) w = [ENavigate "/"]
   \/
   loggedIn w = false /\
   trace (enter (Layout_Route loggedIn)) w = [ENavigate "/login"] /\
   trace (enter (ResetPassword_Route loggedIn)) w = [ERender "ResetPassword"])
  /\
  localStorage (world_after (enter (Layout_Route loggedIn)) w) = localStorage w /\
  localStorage (world_after (enter (ResetPassword_Route loggedIn)) w)
    = localStorage w /\
  queries (world_after (enter (Layout_Route loggedIn)) w) = queries w /\
  queries (world_after (enter (ResetPassword_Route loggedIn)) w) = queries w.
Proof.
  split.
  - destruct (loggedIn w) eqn:H; [left|right]; (split; [reflexivity|]);
      split; run_handler; rewrite H; cbv beta iota; read_log; reflexivity.
  - repeat split; run_handler; destruct (loggedIn w); reflexivity.
Qed.

(** ** The sidebar *)

Lemma SidebarItems_run (w : World) :
  SidebarItems w
    = (Done (if optional_is_superuser (cached_data w "currentUser")
             then items ++ [ {| sb_icon := FiUsers; sb_title := "Admin";
                                sb_path := "/admin" |} ]
             else items), w).
Proof. reflexivity. Qed.

Lemma UserSettings_run (w : World) :
  UserSettings w
    = (Done (if optional_is_superuser (cached_data w "currentUser")
             then take 3 tabsConfig else tabsConfig), w).
Proof. reflexivity. Qed.

Lemma optional_is_superuser_true (d : option CachedData) :
  optional_is_superuser d = true
  <-> exists u, d = Some (CUser u) /\ is_superuser u = true.
Proof.
  split.
  - destruct d as [[u| |]|]; cbn; try discriminate. intros H. by exists u.
  - by intros (u & -> & H).
Qed.

(** X15. The sidebar always starts with the three links Dashboard, Items
    and User Settings, in that order, and it shows the link to ["/admin"]
    if and only if the cached current user is a superuser; when it does,
    the link comes last. *)
Theorem SidebarItems_admin_link_iff_superuser (w : World) :
  exists links,
    outcome_of SidebarItems w = Done links /\
    take 3 (sb_path <$> links) = ["/"; "/items"; "/settings"] /\
    ("/admin" ∈ (sb_path <$> links)
       <-> exists u, cached_data w "currentUser" = Some (CUser u) /\
                     is_superuser u = true) /\
    ("/admin" ∈ (sb_path <$> links) ->
       last (sb_title <$> links) = Some "Admin" /\ length links = 4%nat).
Proof.
  unfold outcome_of. rewrite SidebarItems_run. cbn [fst].
  eexists. split; [reflexivity|].
  rewrite <- optional_is_superuser_true.
  destruct (optional_is_superuser _); cbn.
  - split; [done|]. split; [|done]. split; [done|]. intros _.
    rewrite !elem_of_cons. auto.
  - split; [done|]. split.
    + split; [|done]. in_log.
    + in_log.
Qed.

(** X16. The sidebar and the settings page agree on the role: the link
    to the administration is shown exactly when the tab that deletes the
    own account is hidden. *)
Theorem admin_link_iff_no_danger_zone (w : World) :
  exists links tabs,
    outcome_of SidebarItems w = Done links /\
    outcome_of UserSettings w = Done tabs /\
    ("/admin" ∈ (sb_path <$> links)
       <-> DeleteAccount ∉ (tab_component <$> tabs)).
Proof.
  unfold outcome_of. rewrite SidebarItems_run, UserSettings_run. cbn [fst].
  do 2 eexists. split; [reflexivity|]. split; [reflexivity|].
  destruct (optional_is_superuser _); cbn.
  - split; [in_log|]. intros _. rewrite !elem_of_cons. auto.
  - split; [in_log|]. intros H. destruct H. rewrite !elem_of_cons. auto.
Qed.

(** ** The tables *)

Lemma is_current_true (cu : option CachedData) (user : UserPublic) :
  is_current cu user = true
  <-> exists u, cu = Some (CUser u) /\ user_id u = user_id user.
Proof.
  split.
  - destruct cu as [[u| |]|]; cbn; try discriminate.
    intros H. apply bool_decide_eq_true in H. by exists u.
  - intros (u & -> & H). cbn. by apply bool_decide_eq_true.
Qed.

(** X17. The users table renders one row per fetched user, in order.  A
    row carries the badge "You" and has its actions menu disabled if and
    only if it is the row of the cached current user; with no current
    user in the cache no row is marked and every menu is enabled. *)
Theorem MembersTableBody_own_row_is_disabled
    (users : list UserPublic) (w : World) :
  exists rows,
    outcome_of (MembersTableBody users) w = Done rows /\
    mr_key <$> rows = user_id <$> users /\
    (forall row, row ∈ rows ->
       (am_isDisabled (mr_actions row) = true <-> mr_you row = true) /\
       (mr_you row = true
          <-> exists u, cached_data w "currentUser" = Some (CUser u) /\
                        user_id u = mr_key row)) /\
    (cached_data w "currentUser" = None ->
       forall row, row ∈ rows -> am_isDisabled (mr_actions row) = false).
Proof.
  exists (MembersTableBody_row (cached_data w "currentUser") <$> users).
  split; [reflexivity|]. split.
  { rewrite <- list_fmap_compose. by apply list_fmap_ext. }
  split.
  - intros row Hrow. apply list_elem_of_fmap in Hrow as (user & -> & _).
    cbn. split.
    + by destruct (is_current _ user).
    + apply is_current_true.
  - intros Hn row Hrow. apply list_elem_of_fmap in Hrow as (user & -> & _).
    cbn. by rewrite Hn.
Qed.





(** X19. The delete dialog reached from a row deletes that row: from a
    row of the users table it sends the deletion of that user's id and
    invalidates ["users"]; from a row of the items table it sends the
    deletion of that item's id and invalidates ["items"].  The edit entry
    of a users row mounts the user editor on that user, the one of an
    items row the item editor on that item. *)
Theorem row_actions_act_on_their_row
    (server : Headers -> ApiCall -> Response) (cu : option CachedData)
    (user : UserPublic) (item : ItemPublic) (w : World) :
  let h := getHeaders (stored_token w) in
  let mu := mr_actions (MembersTableBody_row cu user) in
  let mi := ir_actions (ItemsTableBody_row item) in
  requests (trace (confirm_delete server mu) w)
    = [(h, DeleteUser (user_id user))] /\
  invalidated_keys (trace (confirm_delete server mu) w) = ["users"] /\
  requests (trace (confirm_delete server mi) w)
    = [(h, DeleteItem (item_id item))] /\
  invalidated_keys (trace (confirm_delete server mi) w) = ["items"] /\
  am_edit mu = EditUser (UserValue user) /\
  am_edit mi = EditItem (ItemValue item) /\
  am_isDisabled mi = false.
Proof.
  cbv zeta. unfold confirm_delete. cbn [mr_actions ir_actions
    MembersTableBody_row ItemsTableBody_row ActionsMenu am_delete_type
    am_delete_id value_id].
  rewrite Delete_trace_User, Delete_trace_Item. cbv zeta.
  repeat split; destruct (server _ _); reflexivity.
Qed.

(** ** The token store has no other writer *)

(** X20. None of the forms writes the token store: after a delete dialog
    of any type, the add-user form, the profile form or the reset form,
    whatever the server answers, [localStorage] is what it was. *)
Theorem forms_leave_the_token_store_alone
    (server : Headers -> ApiCall -> Response) (type : string) (id : Z)
    (uc : UserCreate) (me : UserUpdateMe) (new_pw : string) (w : World) :
  localStorage (world_after (Delete_onSubmit server type id) w)
    = localStorage w /\
  localStorage (world_after (AddUser_onSubmit server uc) w) = localStorage w /\
  localStorage (world_after (UserInformation_onSubmit server me) w)
    = localStorage w /\
  localStorage (world_after (ResetPassword_onSubmit server new_pw) w)
    = localStorage w.
Proof.
  assert (HD : preserves same_storage (Delete_onSubmit server type id))
    by preserves_tac.
  assert (HA : preserves same_storage (AddUser_onSubmit server uc))
    by preserves_tac.
  assert (HU : preserves same_storage (UserInformation_onSubmit server me))
    by preserves_tac.
  assert (HR : preserves same_storage (ResetPassword_onSubmit server new_pw))
    by preserves_tac.
  repeat split; [apply HD | apply HA | apply HU | apply HR].
Qed.

(** ** Updating the own profile, continued *)

(** X21. The profile form sends exactly one request, carrying the name
    and the address of the form; the success toast appears if and only
    if the server accepts; the form is never emptied, nothing is closed
    and nothing navigates; the two invalidations come after the toast,
    ["users"] first and ["currentUser"] last. *)
Theorem UserInformation_keeps_the_form
    (server : Headers -> ApiCall -> Response) (data : UserUpdateMe)
    (w : World) :
  let h := getHeaders (stored_token w) in
  let c := UpdateUserMe (me_full_name data) (me_email data) in
  let tr := trace (UserInformation_onSubmit server data) w in
  requests tr = [(h, c)] /\
  (EToast "Success!" "User updated successfully." "success" ∈ tr
     <-> accepted (server h c)) /\
  (EFormReset ∉ tr) /\
  (EClose ∉ tr) /\
  (forall to, ENavigate to ∉ tr) /\
  (exists toast,
     tr = [ERequest h c; toast;
           ECache (Invalidate "users"); ECache (Invalidate "currentUser")]).
Proof.
  cbv zeta. rewrite UserInformation_trace. cbv zeta.
  split; [|split; [|split; [|split; [|split]]]].
  - destruct (server _ _); reflexivity.
  - destruct (server _ _); cbn; in_log.
  - destruct (server _ _); cbn; in_log.
  - destruct (server _ _); cbn; in_log.
  - intros to. destruct (server _ _); cbn; in_log.
  - destruct (server _ _); cbn; by eexists.
Qed.
